(** * ThinkingUI: the Streamlit chat page of [app.py]

    A shallow embedding of [app.py] and the properties of its stream
    classifier ([process_thinking_stream]) and of its conversation store
    ([st.session_state["messages"]]).

    Python dictionaries are finite maps ([gmap string _]), Python lists are
    lists, text is a [string] holding the UTF-8 bytes of the Python [str].
    The script mutates the session state and writes to the page while it may
    raise at any point, so its functions live in a state monad whose state
    survives an exception. *)

From stdpp Require Import base option list strings gmap.

(** ** Python values of the script *)

(** A chat message, [{"role": ..., "content": ..., "thinking": ...}]: a
    dictionary from field name to text. *)
Abbreviation message := (gmap string string).

(** One element of the response stream. Only its ["message"] entry is read,
    so a part is a dictionary whose values are message dictionaries. *)
Abbreviation part := (gmap string message).

Inductive exn : Type :=
| KeyError (key : string)
| TypeError
| FileNotFoundError (path : string)
| ResponseError (detail : string).

(** The generator returned by [client.chat(..., stream=True)]: it yields
    [parts] in order and then either stops ([failure = None]) or raises. *)
Record stream : Type := Stream {
  parts : list part;
  failure : option exn
}.

(** The [ollama.Client] object built at import time. *)
Record Client : Type := MkClient {
  host : string;
  headers : gmap string string
}.

(** ** What one run of the script can observe and produce *)

Inductive block : Type :=
| StatusBlock (label : string)
| ChatMessage (name : string)
| Expander (label : string).

(** Calls that leave the process: Streamlit elements and transport requests.
    [Banner] is the [st.markdown] call of [main]; its HTML text, which embeds
    the two logos in base64, is not expanded. *)
Inductive event : Type :=
| SetPageConfig (page_title layout : string)
| Enter (b : block)
| Leave (b : block)
| StatusUpdate (label state : string)
| Markdown (body : string)
| Banner (ollama_logo minimax_logo : string)
| ChatInput (placeholder : string)
| Chat (c : Client) (model : string) (messages : list message).

(** The surroundings of one script run. *)
Record world : Type := World {
  environ : gmap string string;
  files : gmap string string;
  chat_input : option string;
  ollama_chat : Client → string → list message → exn + stream
}.

(** [st.session_state], the entry of [st.cache_resource] for
    [get_chat_model], and the page written so far. The cached chat model is a
    closure over the globals of the run that created it, so the entry is the
    [client] of that run. *)
Record runtime : Type := Runtime {
  session_state : gmap string (list message);
  chat_model_cache : option Client;
  page : list event
}.

(** ** The monad of script code *)

Definition py (A : Type) : Type := runtime → runtime * (exn + A).

#[export] Instance py_ret : MRet py := λ A x σ, (σ, inr x).

#[export] Instance py_bind : MBind py := λ A B f m σ,
  match m σ with
  | (σ', inr x) => f x σ'
  | (σ', inl e) => (σ', inl e)
  end.

Definition raise {A} (e : exn) : py A := λ σ, (σ, inl e).

Definition emit (ev : event) : py unit :=
  λ σ, (Runtime (session_state σ) (chat_model_cache σ) (page σ ++ [ev]), inr tt).

(** [with cm: body]: the block is left on normal exit and on an exception,
    and none of the context managers used here swallows exceptions. *)
Definition with_block {A} (b : block) (body : py A) : py A := λ σ,
  match emit (Enter b) σ with
  | (σ1, _) => match body σ1 with
               | (σ2, r) => ((emit (Leave b) σ2).1, r)
               end
  end.

(** [for x in xs: body x] *)
Fixpoint for_each {A} (xs : list A) (body : A → py unit) : py unit :=
  match xs with
  | [] => mret tt
  | x :: xs' => body x ≫= λ _, for_each xs' body
  end.

(** [d[k]] on a dictionary. *)
Definition subscript {V} (d : gmap string V) (k : string) : py V :=
  match d !! k with
  | Some v => mret v
  | None => raise (KeyError k)
  end.

(** [st.session_state[k].append(x)]: the stored list object is extended in
    place. *)
Definition session_append (k : string) (x : message) : py unit := λ σ,
  match session_state σ !! k with
  | Some l =>
      (Runtime (<[k := l ++ [x]]> (session_state σ)) (chat_model_cache σ) (page σ),
       inr tt)
  | None => (σ, inl (KeyError k))
  end.

Definition session_get (k : string) : py (list message) :=
  λ σ, subscript (session_state σ) k σ.

Definition session_contains (k : string) : py bool :=
  λ σ, (σ, inr (bool_decide (is_Some (session_state σ !! k)))).

Definition session_set (k : string) (l : list message) : py unit :=
  λ σ, (Runtime (<[k := l]> (session_state σ)) (chat_model_cache σ) (page σ), inr tt).

(** ** Python text *)

(** Truth value of a [str]. *)
Definition truthy (s : string) : bool :=
  match s with
  | EmptyString => false
  | String _ _ => true
  end.

(** The white space of [str.strip()], as UTF-8: U+0009-000D, U+001C-0020,
    U+0085, U+00A0, U+1680, U+2000-200A, U+2028, U+2029, U+202F, U+205F and
    U+3000. *)
Definition space1 (a : N) : bool :=
  ((9 <=? a) && (a <=? 13) || (28 <=? a) && (a <=? 32))%N.

Definition space2 (a b : N) : bool :=
  ((a =? 0xC2) && ((b =? 0x85) || (b =? 0xA0)))%N.

Definition space3 (a b c : N) : bool :=
  ((a =? 0xE1) && (b =? 0x9A) && (c =? 0x80)
   || (a =? 0xE2) && (b =? 0x80)
      && ((0x80 <=? c) && (c <=? 0x8A) || (c =? 0xA8) || (c =? 0xA9) || (c =? 0xAF))
   || (a =? 0xE2) && (b =? 0x81) && (c =? 0x9F)
   || (a =? 0xE3) && (b =? 0x80) && (c =? 0x80))%N.

(** [s.strip()] is the empty string: [s] is white space only. *)
Fixpoint blank (s : string) : bool :=
  match s with
  | EmptyString => true
  | String a s1 =>
      if space1 (Ascii.N_of_ascii a) then blank s1 else
      match s1 with
      | EmptyString => false
      | String b s2 =>
          if space2 (Ascii.N_of_ascii a) (Ascii.N_of_ascii b) then blank s2 else
          match s2 with
          | EmptyString => false
          | String c s3 =>
              if space3 (Ascii.N_of_ascii a) (Ascii.N_of_ascii b) (Ascii.N_of_ascii c)
              then blank s3 else false
          end
      end
  end.

(** ** [app.py] *)

Section app.

Variable w : world.

(** Lines 11-14. [os.environ.get] gives [None] for an unset variable, and
    [str + None] raises. *)
Definition client : py Client :=
  match environ w !! "OLLAMA_API_KEY" with
  | Some key =>
      mret (MkClient "https://ollama.com"
                     {[ "Authorization" := "Bearer " +:+ key ]})
  | None => raise TypeError
  end.

(** One iteration of the loop of [process_thinking_stream]. *)
Definition classify (acc : string * string) (p : part) : string * string :=
  let message := default ∅ (p !! "message") in
  match message !! "thinking" with
  | Some delta => (acc.1 +:+ delta, acc.2)
  | None =>
      match message !! "content" with
      | Some delta => (acc.1, acc.2 +:+ delta)
      | None => acc
      end
  end.

Definition process_thinking_stream (s : stream) : py (string * string) :=
  with_block (StatusBlock "💭 Thinking...")
    (let acc := foldl classify ("", "") (parts s) in
     match failure s with
     | Some e => raise e
     | None =>
         emit (StatusUpdate "✅ Thinking complete!" "complete") ≫= λ _,
         mret acc
     end).

(** [thinking_content] is [None] when a stored message has no ["thinking"]
    entry; [x and x.strip()] is then false. *)
Definition display_assistant_message (content thinking_content : option string)
  : py unit :=
  match thinking_content with
  | Some t =>
      if truthy t && negb (blank t)
      then with_block (Expander "🧠 Thinking process") (emit (Markdown t))
      else mret tt
  | None => mret tt
  end ≫= λ _,
  match content with
  | Some c => if truthy c then emit (Markdown c) else mret tt
  | None => mret tt
  end.

Definition display_message (m : message) : py unit :=
  r ← subscript m "role";
  let role := if decide (r = "user") then "user" else "assistant" in
  with_block (ChatMessage role)
    (if decide (role = "assistant")
     then display_assistant_message (m !! "content") (m !! "thinking")
     else c ← subscript m "content"; emit (Markdown c)).

Definition display_chat_history : py unit :=
  messages ← session_get "messages";
  for_each messages (λ m,
    r ← subscript m "role";
    if decide (r ≠ "system") then display_message m else mret tt).

(** [get_chat_model] is memoised by [st.cache_resource]; the model it
    returns calls the transport with the client it closed over. *)
Definition get_chat_model (c : Client) : py (list message → py stream) := λ σ,
  let cached := default c (chat_model_cache σ) in
  (Runtime (session_state σ) (Some cached) (page σ),
   inr (λ messages,
     emit (Chat cached "minimax-m2:cloud" messages) ≫= λ _,
     match ollama_chat w cached "minimax-m2:cloud" messages with
     | inr s => mret s
     | inl e => raise e
     end)).

Definition user_message (user_input : string) : message :=
  {[ "role" := "user"; "content" := user_input ]}.

Definition assistant_message (response_content thinking_content : string) : message :=
  {[ "role" := "assistant"; "content" := response_content;
     "thinking" := thinking_content ]}.

Definition handle_user_input (c : Client) : py unit :=
  emit (ChatInput "Type your message here...") ≫= λ _,
  match chat_input w with
  | Some user_input =>
      if truthy user_input then
        session_append "messages" (user_message user_input) ≫= λ _,
        with_block (ChatMessage "user") (emit (Markdown user_input)) ≫= λ _,
        with_block (ChatMessage "assistant")
          (chat_model ← get_chat_model c;
           messages ← session_get "messages";
           stream ← chat_model messages;
           '(thinking_content, response_content) ← process_thinking_stream stream;
           display_assistant_message (Some response_content) (Some thinking_content) ≫= λ _,
           session_append "messages"
             (assistant_message response_content thinking_content))
      else mret tt
  | None => mret tt
  end.

(** [open(path, "rb").read()] *)
Definition read_file (path : string) : py string :=
  match files w !! path with
  | Some data => mret data
  | None => raise (FileNotFoundError path)
  end.

Definition main (c : Client) : py unit :=
  minimax_logo ← read_file "assets/minimax.png";
  ollama_logo ← read_file "assets/ollama.png";
  emit (Banner ollama_logo minimax_logo) ≫= λ _,
  display_chat_history ≫= λ _,
  handle_user_input c.

Definition system_message : message :=
  {[ "role" := "system";
     "content" := "You are a helpful AI assistant that explains your reasoning before answering." ]}.

(** The module body, top to bottom. *)
Definition script : py unit :=
  c ← client;
  emit (SetPageConfig "Ollama Thinking Chat" "centered") ≫= λ _,
  present ← session_contains "messages";
  (if present : bool then mret tt else session_set "messages" [system_message]) ≫= λ _,
  main c.

End app.

(** ** Sessions *)

(** Streamlit runs the script once per interaction on a blank page; the
    session state and the resource cache are carried over, also when the
    previous run ended in an exception. *)
Definition rerun (w : world) (σ : runtime) : runtime * (exn + unit) :=
  script w (Runtime (session_state σ) (chat_model_cache σ) []).

(** A session that has not run the script yet. The resource cache belongs to
    the process, so an earlier session may have filled it. *)
Definition fresh (cache : option Client) : runtime := Runtime ∅ cache [].

(** The conversation store, when the session has one. *)
Definition store (σ : runtime) : option (list message) :=
  session_state σ !! "messages".

(** ** Fragments, as the specification speaks of them *)

(** The message dictionary a fragment exposes. *)
Definition fragment_message (p : part) : message := default ∅ (p !! "message").

(** The fragment carries a delta under [tag]. *)
Definition tagged (tag : string) (p : part) : Prop :=
  is_Some (fragment_message p !! tag).

#[export] Instance tagged_dec tag p : Decision (tagged tag p).
Proof. unfold tagged. apply _. Defined.

(** The deltas that the fragments of [F] carry under [tag], in order. *)
Definition deltas (tag : string) (F : list part) : list string :=
  omap (λ p, fragment_message p !! tag) F.

(** In-order concatenation of texts. *)
Definition join (l : list string) : string := foldr String.app "" l.

(** The content deltas of the fragments that carry no thinking delta. *)
Definition answer_deltas (F : list part) : list string :=
  deltas "content" (filter (λ p, ¬ tagged "thinking" p) F).

(** ** Turns and sessions, as the specification speaks of them *)

(** The text submitted in this run, if any: [st.chat_input] gives [None]
    until the user sends a text, and an empty text counts as none. *)
Definition submitted (w : world) : option string :=
  match chat_input w with
  | Some user_input => if truthy user_input then Some user_input else None
  | None => None
  end.

(** The runs of a session, oldest first, when none of them raises. *)
Fixpoint completed (ws : list world) (σ : runtime) : option runtime :=
  match ws with
  | [] => Some σ
  | w :: ws' =>
      match rerun w σ with
      | (σ', inr _) => completed ws' σ'
      | (_, inl _) => None
      end
  end.

(** The state after the runs [ws], oldest first, whatever they did. *)
Definition run_all (ws : list world) (σ : runtime) : runtime :=
  foldl (λ σ w, (rerun w σ).1) σ ws.

(** The two messages of a completed turn. *)
Definition exchange (x : string * (string * string)) : list message :=
  [user_message x.1; assistant_message x.2.1 x.2.2].

(** The store after the completed turns [xs]. *)
Definition transcript (xs : list (string * (string * string))) : list message :=
  system_message :: xs ≫= exchange.

Definition roles (msgs : list message) : list (option string) :=
  (λ m : message, m !! "role") <$> msgs.

(** What a run with outcome [r] appends to the store. *)
Inductive run_appends (w : world) : exn + unit → list message → Prop :=
| appends_idle :
    submitted w = None → run_appends w (inr tt) []
| appends_crash e :
    run_appends w (inl e) []
| appends_failed u e :
    submitted w = Some u → run_appends w (inl e) [user_message u]
| appends_completed u r t :
    submitted w = Some u →
    run_appends w (inr tt) [user_message u; assistant_message r t].

(** ** Notions used in the proofs *)

(** [m] leaves the session state and the resource cache alone. *)
Definition page_only {A} (m : py A) : Prop :=
  ∀ σ, session_state (m σ).1 = session_state σ
       ∧ chat_model_cache (m σ).1 = chat_model_cache σ.

(** The answer of the transport to the request of this turn. *)
Definition reply (w : world) (c : Client) (σ : runtime) (msgs : list message)
    (u : string) : exn + stream :=
  ollama_chat w (default c (chat_model_cache σ)) "minimax-m2:cloud"
              (msgs ++ [user_message u]).

(** How the turn ends and which assistant message it commits, by what the
    transport does. *)
Definition outcome (r : exn + stream) : (exn + unit) * list message :=
  match r with
  | inl e => (inl e, [])
  | inr s =>
      match failure s with
      | Some e => (inl e, [])
      | None =>
          let acc := foldl classify ("", "") (parts s) in
          (inr tt, [assistant_message acc.2 acc.1])
      end
  end.

(** A message with a thinking field is an assistant message. *)
Definition thinking_on_assistant (m : message) : Prop :=
  is_Some (m !! "thinking") → m !! "role" = Some "assistant".

(** ** Sample inputs *)

Definition both_tags : part :=
  {[ "message" := {[ "thinking" := "a"; "content" := "b" ]} ]}.

Definition content_only (delta : string) : part :=
  {[ "message" := ({[ "content" := delta ]} : message) ]}.

Definition thinking_only (delta : string) : part :=
  {[ "message" := ({[ "thinking" := delta ]} : message) ]}.

Definition sample_files : gmap string string :=
  {[ "assets/minimax.png" := "M"; "assets/ollama.png" := "O" ]}.

(** A page load, a turn that is answered, a turn whose stream breaks after
    one fragment, and a run without the credential. *)
Definition sample_client : Client :=
  MkClient "https://ollama.com" {[ "Authorization" := "Bearer k" ]}.

Definition page_load : world :=
  World {[ "OLLAMA_API_KEY" := "k" ]} sample_files None
        (λ _ _ _, inl (ResponseError "unreachable")).

Definition answered_turn : world :=
  World {[ "OLLAMA_API_KEY" := "k" ]} sample_files (Some "6 x 7?")
        (λ _ _ _, inr (Stream [thinking_only "Let me "; thinking_only "think.";
                               content_only "42"] None)).

Definition broken_turn : world :=
  World {[ "OLLAMA_API_KEY" := "k" ]} sample_files (Some "hi")
        (λ _ _ _, inr (Stream [content_only "partial"]
                              (Some (ResponseError "connection lost")))).

Definition no_credential : world :=
  World ∅ sample_files (Some "hi")
        (λ _ _ _, inr (Stream [content_only "hello"] None)).

(** A session whose page has been loaded once. *)
Definition opened : runtime := (rerun page_load (fresh None)).1.

(** ** Notions used for the rest of the script *)

(** The transport requests on a page, oldest first. *)
Definition requests (pg : list event) : list (Client * string * list message) :=
  omap (λ ev, match ev with
              | Chat c model messages => Some (c, model, messages)
              | _ => None
              end) pg.

(** [m] draws without touching the session and without calling the
    transport. *)
Definition quiet {A} (m : py A) : Prop :=
  ∀ σ, session_state (m σ).1 = session_state σ
       ∧ chat_model_cache (m σ).1 = chat_model_cache σ
       ∧ requests (page (m σ).1) = requests (page σ).

(** A message that [display_message] can draw: it has a role, and a content
    when the role is user. *)
Definition displayable (m : message) : Prop :=
  ∃ r, m !! "role" = Some r ∧ (r = "user" → is_Some (m !! "content")).


(** The client that a run builds from the credential [key]. *)
Definition client_of (key : string) : Client :=
  MkClient "https://ollama.com" {[ "Authorization" := "Bearer " +:+ key ]}.

(** Texts made of ASCII white space only. *)
Fixpoint ascii_spaces (s : string) : bool :=
  match s with
  | EmptyString => true
  | String a s' => space1 (Ascii.N_of_ascii a) && ascii_spaces s'
  end.


Definition other_key_turn : world :=
  World {[ "OLLAMA_API_KEY" := "other" ]} sample_files (Some "again")
        (λ _ _ _, inr (Stream [content_only "hello"] None)).

(** ** Text lemmas *)

Lemma string_app_nil_r (s : string) : s +:+ "" = s.
Proof. induction s as [|a s IH]; [done|]. unfold String.app in *. simpl. by rewrite IH. Qed.

Lemma string_app_assoc (s t u : string) : s +:+ (t +:+ u) = (s +:+ t) +:+ u.
Proof. induction s as [|a s IH]; [done|]. unfold String.app in *. simpl. by rewrite IH. Qed.

Lemma join_app (l k : list string) : join (l ++ k) = join l +:+ join k.
Proof.
  induction l as [|s l IH]; [done|].
  simpl. rewrite IH. apply string_app_assoc.
Qed.

(** ** The stream classifier *)

Section classifier.

Implicit Types (F : list part) (p : part) (acc : string * string).

Lemma classify_thinking acc p delta :
  fragment_message p !! "thinking" = Some delta →
  classify acc p = (acc.1 +:+ delta, acc.2).
Proof. unfold classify, fragment_message. by intros ->. Qed.

Lemma classify_content acc p delta :
  fragment_message p !! "thinking" = None →
  fragment_message p !! "content" = Some delta →
  classify acc p = (acc.1, acc.2 +:+ delta).
Proof. unfold classify, fragment_message. by intros -> ->. Qed.

Lemma classify_untagged acc p :
  fragment_message p !! "thinking" = None →
  fragment_message p !! "content" = None →
  classify acc p = acc.
Proof. unfold classify, fragment_message. by intros -> ->. Qed.

Lemma deltas_cons tag p F :
  deltas tag (p :: F) =
    from_option (λ d, [d]) [] (fragment_message p !! tag) ++ deltas tag F.
Proof. unfold deltas. simpl. by destruct (fragment_message p !! tag). Qed.

Lemma answer_deltas_cons_thinking p F :
  tagged "thinking" p → answer_deltas (p :: F) = answer_deltas F.
Proof.
  intros Hp. unfold answer_deltas. rewrite filter_cons.
  destruct (decide (¬ tagged "thinking" p)); [tauto|done].
Qed.

Lemma answer_deltas_cons_other p F :
  fragment_message p !! "thinking" = None →
  answer_deltas (p :: F) =
    from_option (λ d, [d]) [] (fragment_message p !! "content") ++ answer_deltas F.
Proof.
  intros Hp. unfold answer_deltas. rewrite filter_cons.
  destruct (decide (¬ tagged "thinking" p)) as [_|Hn].
  - apply deltas_cons.
  - exfalso. apply Hn. unfold tagged. rewrite Hp. by intros [? ?].
Qed.

(** The loop, started from any pair of accumulators. *)
Lemma foldl_classify F acc :
  foldl classify acc F =
    (acc.1 +:+ join (deltas "thinking" F), acc.2 +:+ join (answer_deltas F)).
Proof.
  revert acc. induction F as [|p F IH]; intros [t c].
  - simpl. by rewrite !string_app_nil_r.
  - simpl foldl. rewrite IH, deltas_cons.
    destruct (fragment_message p !! "thinking") as [d|] eqn:Ht.
    + rewrite (classify_thinking _ _ d Ht).
      rewrite answer_deltas_cons_thinking by (unfold tagged; rewrite Ht; eauto).
      simpl. by rewrite string_app_assoc.
    + rewrite (answer_deltas_cons_other _ _ Ht).
      destruct (fragment_message p !! "content") as [d|] eqn:Hc.
      * rewrite (classify_content _ _ d Ht Hc). simpl.
        by rewrite string_app_assoc.
      * by rewrite (classify_untagged _ _ Ht Hc).
Qed.

(** What [process_thinking_stream] does on a stream that stops. *)
Lemma process_thinking_stream_run F σ :
  process_thinking_stream (Stream F None) σ =
    (Runtime (session_state σ) (chat_model_cache σ)
       (page σ ++ [Enter (StatusBlock "💭 Thinking...");
                   StatusUpdate "✅ Thinking complete!" "complete";
                   Leave (StatusBlock "💭 Thinking...")]),
     inr (foldl classify ("", "") F)).
Proof.
  unfold process_thinking_stream, with_block, emit, mbind, py_bind, mret, py_ret.
  simpl. by rewrite <- !(assoc_L (++)).
Qed.

(** What it does on a stream that raises: the exception leaves the status
    block and the accumulators are lost. *)
Lemma process_thinking_stream_raise F e σ :
  process_thinking_stream (Stream F (Some e)) σ =
    (Runtime (session_state σ) (chat_model_cache σ)
       (page σ ++ [Enter (StatusBlock "💭 Thinking...");
                   Leave (StatusBlock "💭 Thinking...")]),
     inl e).
Proof.
  unfold process_thinking_stream, with_block, emit, raise.
  simpl. by rewrite <- !(assoc_L (++)).
Qed.

End classifier.

(** ** Running a bind *)

Lemma bind_run {A B} (m : py A) (f : A → py B) σ :
  (m ≫= f) σ =
    match m σ with
    | (σ', inr x) => f x σ'
    | (σ', inl e) => (σ', inl e)
    end.
Proof. done. Qed.

Lemma bind_subscript {V B} (d : gmap string V) k (f : V → py B) σ :
  (subscript d k ≫= f) σ =
    match d !! k with
    | Some v => f v σ
    | None => (σ, inl (KeyError k))
    end.
Proof. rewrite bind_run. unfold subscript. by destruct (d !! k). Qed.

Lemma for_each_cons {A} (x : A) xs (body : A → py unit) :
  for_each (x :: xs) body = body x ≫= λ _, for_each xs body.
Proof. done. Qed.

(** ** Code that only writes to the page *)

Lemma page_only_ret {A} (x : A) : page_only (mret x).
Proof. by intros σ. Qed.

Lemma page_only_raise {A} (e : exn) : page_only (raise e : py A).
Proof. by intros σ. Qed.

Lemma page_only_emit ev : page_only (emit ev).
Proof. by intros σ. Qed.

Lemma page_only_bind {A B} (m : py A) (f : A → py B) :
  page_only m → (∀ x, page_only (f x)) → page_only (m ≫= f).
Proof.
  intros Hm Hf σ. unfold mbind, py_bind.
  destruct (Hm σ) as [Hs Hc]. destruct (m σ) as [σ1 [e|x]]; simpl in *; [done|].
  destruct (Hf x σ1) as [Hs' Hc']. split; congruence.
Qed.

Lemma page_only_with_block {A} b (m : py A) : page_only m → page_only (with_block b m).
Proof.
  intros Hm σ. unfold with_block. simpl.
  destruct (Hm (Runtime (session_state σ) (chat_model_cache σ)
                        (page σ ++ [Enter b]))) as [Hs Hc].
  by destruct (m _) as [σ2 r].
Qed.

Lemma page_only_subscript {A} (d : gmap string A) k : page_only (subscript d k).
Proof. unfold subscript. by destruct (d !! k); intros σ. Qed.

Lemma page_only_for_each {A} (xs : list A) (body : A → py unit) :
  (∀ x, page_only (body x)) → page_only (for_each xs body).
Proof.
  intros Hb. induction xs as [|x xs IH]; simpl.
  - by intros σ.
  - apply page_only_bind; [apply Hb|done].
Qed.

Lemma page_only_session_get k : page_only (session_get k).
Proof. intros σ. unfold session_get, subscript. by destruct (session_state σ !! k). Qed.

Lemma page_only_session_contains k : page_only (session_contains k).
Proof. by intros σ. Qed.

Create HintDb page_only.

#[export] Hint Resolve page_only_ret page_only_raise page_only_emit
  page_only_with_block page_only_subscript page_only_for_each : page_only.

#[export] Hint Extern 2 (page_only (_ ≫= _)) =>
  apply page_only_bind; [|intros ?] : page_only.

#[export] Hint Extern 3 (page_only (match ?x with _ => _ end)) =>
  destruct x : page_only.

Lemma page_only_display_assistant_message content thinking_content :
  page_only (display_assistant_message content thinking_content).
Proof. unfold display_assistant_message. auto 8 with page_only. Qed.

Lemma page_only_display_message m : page_only (display_message m).
Proof.
  unfold display_message.
  auto 8 using page_only_display_assistant_message with page_only.
Qed.

Lemma page_only_display_chat_history : page_only display_chat_history.
Proof.
  unfold display_chat_history.
  auto 8 using page_only_session_get, page_only_display_message with page_only.
Qed.

Lemma page_only_read_file w path : page_only (read_file w path).
Proof. unfold read_file. auto with page_only. Qed.

(** ** The turn handler *)

Section handler.

Variable w : world.

Implicit Types (c : Client) (σ : runtime) (msgs : list message) (u : string).

Lemma submitted_Some u :
  submitted w = Some u ↔ chat_input w = Some u ∧ truthy u = true.
Proof.
  unfold submitted. split.
  - destruct (chat_input w) as [v|]; [|done].
    destruct (truthy v) eqn:Hv; [|done]. by intros [= <-].
  - intros [-> Ht]. by rewrite Ht.
Qed.

(** Without a submitted text the handler only draws the input box. *)
Lemma handle_user_input_idle c σ :
  submitted w = None →
  handle_user_input w c σ =
    (Runtime (session_state σ) (chat_model_cache σ)
             (page σ ++ [ChatInput "Type your message here..."]),
     inr tt).
Proof.
  unfold submitted, handle_user_input. intros Hs.
  destruct (chat_input w) as [v|]; [|done].
  by destruct (truthy v).
Qed.


Lemma handle_user_input_turn c σ msgs u :
  submitted w = Some u →
  store σ = Some msgs →
  let r := handle_user_input w c σ in
  chat_model_cache r.1 = Some (default c (chat_model_cache σ))
  ∧ Chat (default c (chat_model_cache σ)) "minimax-m2:cloud"
         (msgs ++ [user_message u]) ∈ page r.1
  ∧ r.2 = (outcome (reply w c σ msgs u)).1
  ∧ session_state r.1 =
      <["messages" := msgs ++ user_message u :: (outcome (reply w c σ msgs u)).2]>
        (session_state σ).
Proof.
  intros [Hi Ht]%submitted_Some Hst. unfold reply, outcome.
  destruct σ as [ss cache pg]. unfold store in Hst. simpl in *.
  unfold handle_user_input. rewrite Hi, Ht.
  unfold mbind, py_bind, emit, session_append, with_block, get_chat_model,
    session_get, subscript, emit. simpl. rewrite Hst. simpl.
  rewrite lookup_insert_eq. simpl.
  destruct (ollama_chat w (default c cache) "minimax-m2:cloud"
                        (msgs ++ [user_message u])) as [e|[F [e|]]]; simpl.
  - split_and!; [done|set_solver|done|done].
  - split_and!; [done|set_solver|done|done].
  - destruct (foldl classify ("", "") F) as [t r]. simpl.
    unfold display_assistant_message, mbind, py_bind, with_block, emit.
    destruct (truthy t && negb (blank t)), (truthy r); simpl;
      rewrite lookup_insert_eq, insert_insert_eq, <- (assoc_L (++)); simpl;
      (split_and!; [done|set_solver|done|done]).
Qed.

(** A transport that refuses the call, as one that breaks the stream, leaves
    the user message in the store and commits no assistant message. *)
Lemma handle_user_input_call_failure c σ msgs u e :
  submitted w = Some u →
  store σ = Some msgs →
  reply w c σ msgs u = inl e →
  (handle_user_input w c σ).2 = inl e
  ∧ store (handle_user_input w c σ).1 = Some (msgs ++ [user_message u]).
Proof.
  intros Hs Hst Hreply.
  destruct (handle_user_input_turn c σ msgs u Hs Hst) as (_ & _ & Hr & Hss).
  rewrite Hreply in *. simpl in *.
  split; [done|]. unfold store. by rewrite Hss, lookup_insert_eq.
Qed.

(** The handler appends to the store and does nothing else to it. *)
Lemma handle_user_input_appends c σ msgs :
  store σ = Some msgs →
  ∃ tail,
    session_state (handle_user_input w c σ).1 =
      <["messages" := msgs ++ tail]> (session_state σ)
    ∧ run_appends w (handle_user_input w c σ).2 tail.
Proof.
  intros Hst. destruct (submitted w) as [u|] eqn:Hs.
  - destruct (handle_user_input_turn c σ msgs u Hs Hst) as (_ & _ & Hr & Hss).
    exists (user_message u :: (outcome (reply w c σ msgs u)).2).
    split; [done|]. rewrite Hr. unfold outcome.
    destruct (reply w c σ msgs u) as [e|[F [e|]]]; simpl; by constructor.
  - rewrite (handle_user_input_idle c σ Hs). exists []. simpl.
    rewrite (right_id_L [] (++)). split; [|by constructor].
    symmetry. by apply insert_id.
Qed.

Lemma main_appends c σ msgs :
  store σ = Some msgs →
  ∃ tail,
    session_state (main w c σ).1 = <["messages" := msgs ++ tail]> (session_state σ)
    ∧ run_appends w (main w c σ).2 tail.
Proof.
  intros Hst.
  assert (Hid : session_state σ = <["messages" := msgs ++ []]> (session_state σ)).
  { rewrite (right_id_L [] (++)). symmetry. by apply insert_id. }
  unfold main, mbind, py_bind, read_file.
  destruct (files w !! "assets/minimax.png") as [minimax_logo|];
    [|exists []; split; [done|constructor]].
  destruct (files w !! "assets/ollama.png") as [ollama_logo|];
    [|exists []; split; [done|constructor]].
  simpl.
  set (σ1 := Runtime (session_state σ) (chat_model_cache σ)
                     (page σ ++ [Banner ollama_logo minimax_logo])).
  destruct (page_only_display_chat_history σ1) as [Hss _].
  destruct (display_chat_history σ1) as [σ2 [e|[]]]; simpl in Hss.
  - exists []. simpl. rewrite Hss. split; [done|constructor].
  - rewrite <- Hss. apply handle_user_input_appends.
    unfold store. by rewrite Hss.
Qed.

End handler.

(** ** One run of the script *)

(** With the variable set, also to the empty text, the client is built and
    carries the bearer header. *)
Lemma client_with_key w key σ :
  environ w !! "OLLAMA_API_KEY" = Some key →
  client w σ =
    (σ, inr (MkClient "https://ollama.com"
                      {[ "Authorization" := "Bearer " +:+ key ]})).
Proof. unfold client. by intros ->. Qed.

Lemma rerun_without_key w σ :
  environ w !! "OLLAMA_API_KEY" = None →
  rerun w σ = (Runtime (session_state σ) (chat_model_cache σ) [], inl TypeError).
Proof. intros Hk. unfold rerun, script, client, mbind, py_bind. by rewrite Hk. Qed.

(** A run either stops before it touches the session, or makes sure the store
    exists and appends to it. *)
Lemma rerun_appends w σ key :
  environ w !! "OLLAMA_API_KEY" = Some key →
  ∃ tail,
    session_state (rerun w σ).1 =
      <["messages" := default [system_message] (store σ) ++ tail]> (session_state σ)
    ∧ run_appends w (rerun w σ).2 tail.
Proof.
  intros Hk. unfold rerun, script, client, mbind, py_bind. rewrite Hk.
  unfold store. simpl.
  destruct (session_state σ !! "messages") as [msgs|] eqn:Hst; simpl.
  - apply (main_appends w _ (Runtime _ _ _) msgs Hst).
  - match goal with
    | |- context [main w ?c ?σ1] =>
        destruct (main_appends w c σ1 [system_message]) as (tail & Hss & Hr)
    end.
    { unfold store. simpl. by rewrite lookup_insert_eq. }
    exists tail. split; [|exact Hr]. rewrite Hss. simpl.
    by rewrite insert_insert_eq.
Qed.

(** ** Sessions *)

Lemma transcript_app xs ys : transcript (xs ++ ys) = transcript xs ++ (ys ≫= exchange).
Proof. unfold transcript. by rewrite bind_app. Qed.

Lemma roles_transcript xs :
  roles (transcript xs) =
    Some "system" :: mjoin (replicate (length xs) [Some "user"; Some "assistant"]).
Proof.
  unfold transcript, roles. rewrite fmap_cons. f_equal.
  induction xs as [|[u [r t]] xs IH]; [done|].
  rewrite bind_cons, fmap_app, IH. done.
Qed.

(** A run that returns has either been idle or has committed one exchange. *)
Lemma rerun_completed w σ σ' :
  rerun w σ = (σ', inr tt) →
  ∃ ys, ys.*1 = option_list (submitted w)
        ∧ store σ' = Some (default [system_message] (store σ) ++ (ys ≫= exchange)).
Proof.
  intros Hrun.
  destruct (environ w !! "OLLAMA_API_KEY") as [key|] eqn:Hk.
  - destruct (rerun_appends w σ key Hk) as (tail & Hss & Hr).
    rewrite Hrun in Hss, Hr. simpl in *. unfold store at 1. rewrite Hss.
    rewrite lookup_insert_eq.
    inversion Hr as [Hs| | |u r t Hs]; subst; rewrite Hs.
    + by exists [].
    + by exists [(u, (r, t))].
  - rewrite (rerun_without_key w σ Hk) in Hrun. discriminate.
Qed.

Lemma completed_transcript ws σ σ' xs :
  store σ = Some (transcript xs) →
  completed ws σ = Some σ' →
  ∃ ys, ys.*1 = omap submitted ws ∧ store σ' = Some (transcript (xs ++ ys)).
Proof.
  revert σ xs. induction ws as [|w ws IH]; intros σ xs Hst Hc; simpl in Hc.
  - exists []. rewrite (right_id_L [] (++)). by simplify_eq.
  - destruct (rerun w σ) as [σ1 [e|[]]] eqn:Hrun; [done|].
    destruct (rerun_completed w σ σ1 Hrun) as (ys & Hys & Hst1).
    assert (store σ1 = Some (transcript (xs ++ ys))) as Hst2
      by (by rewrite Hst1, Hst, transcript_app).
    destruct (IH σ1 (xs ++ ys) Hst2 Hc) as (zs & Hzs & Hst').
    exists (ys ++ zs). rewrite (assoc_L (++)). split; [|done].
    rewrite fmap_app, Hys, Hzs. simpl. by destruct (submitted w).
Qed.

Lemma system_message_thinking : thinking_on_assistant system_message.
Proof. intros [x Hx]. by vm_compute in Hx. Qed.

Lemma user_message_thinking u : thinking_on_assistant (user_message u).
Proof. intros [x Hx]. by vm_compute in Hx. Qed.

Lemma assistant_message_thinking r t : thinking_on_assistant (assistant_message r t).
Proof. intros _. by vm_compute. Qed.

Lemma run_appends_thinking w r tail :
  run_appends w r tail → Forall thinking_on_assistant tail.
Proof.
  destruct 1; repeat constructor;
    auto using user_message_thinking, assistant_message_thinking.
Qed.

Lemma rerun_thinking w σ :
  (∀ msgs, store σ = Some msgs → Forall thinking_on_assistant msgs) →
  ∀ msgs, store (rerun w σ).1 = Some msgs → Forall thinking_on_assistant msgs.
Proof.
  intros Hinv msgs.
  destruct (environ w !! "OLLAMA_API_KEY") as [key|] eqn:Hk.
  - destruct (rerun_appends w σ key Hk) as (tail & Hss & Hr).
    unfold store at 1. rewrite Hss, lookup_insert_eq. intros [= <-].
    apply Forall_app. split; [|by eapply run_appends_thinking].
    destruct (store σ) as [msgs0|] eqn:Hst; simpl; [by apply Hinv|].
    repeat constructor. apply system_message_thinking.
  - rewrite (rerun_without_key w σ Hk). apply Hinv.
Qed.

Lemma foldl_classify_tagged F acc :
  foldl classify acc (filter (λ p, tagged "thinking" p ∨ tagged "content" p) F) =
  foldl classify acc F.
Proof.
  revert acc. induction F as [|p F IH]; intros acc; [done|].
  rewrite filter_cons. destruct (decide _) as [_|Hn]; simpl; [apply IH|].
  rewrite IH. f_equal. symmetry. unfold tagged in Hn.
  apply classify_untagged; apply eq_None_not_Some; tauto.
Qed.

(** The loop of [display_chat_history] against rendering the messages that
    are not system messages. *)
Lemma for_each_skip_system (msgs : list message) σ :
  for_each msgs (λ m,
    r ← subscript m "role";
    if decide (r ≠ "system") then display_message m else mret tt) σ =
  for_each (filter (λ m : message, m !! "role" ≠ Some "system") msgs)
           display_message σ.
Proof.
  revert σ. induction msgs as [|m msgs IH]; intros σ; [done|].
  rewrite for_each_cons, bind_run, bind_subscript, filter_cons.
  destruct (m !! "role") as [r|] eqn:Hr.
  - destruct (decide (r ≠ "system")) as [Hne|Heq].
    + rewrite decide_True by congruence. rewrite for_each_cons, bind_run.
      destruct (display_message m σ) as [σ1 [e|[]]]; [done|apply IH].
    + rewrite decide_False by (intros H; apply Heq; congruence). apply IH.
  - rewrite decide_True by done. rewrite for_each_cons, bind_run.
    unfold display_message. by rewrite bind_subscript, Hr.
Qed.

(** * Properties of the specification *)

(** C1, as stated, fails on a fragment that carries both deltas: the answer
    is not the concatenation of all content deltas, because the content
    delta of such a fragment is dropped. *)
Lemma process_thinking_stream_both_tags :
  (process_thinking_stream (Stream [both_tags] None) (fresh None)).2
    = inr ("a", "")
  ∧ (process_thinking_stream (Stream [both_tags] None) (fresh None)).2
    ≠ inr (join (deltas "thinking" [both_tags]), join (deltas "content" [both_tags])).
Proof. split; [reflexivity|]. vm_compute. discriminate. Qed.

(** C1 (amended). For every finite sequence of fragments [F],
    [process_thinking_stream] returns the pair whose first component is the
    in-order concatenation of all thinking deltas of [F] and whose second
    component is the in-order concatenation of the content deltas of the
    fragments of [F] that carry no thinking delta, however the fragments
    are interleaved. *)
Theorem process_thinking_stream_classifies (F : list part) (σ : runtime) :
  (process_thinking_stream (Stream F None) σ).2 =
    inr (join (deltas "thinking" F), join (answer_deltas F)).
Proof. by rewrite process_thinking_stream_run, foldl_classify. Qed.

(** When no fragment carries both deltas, the answer is the concatenation of
    all content deltas. *)
Lemma process_thinking_stream_exclusive (F : list part) (σ : runtime) :
  Forall (λ p, ¬ (tagged "thinking" p ∧ tagged "content" p)) F →
  (process_thinking_stream (Stream F None) σ).2 =
    inr (join (deltas "thinking" F), join (deltas "content" F)).
Proof.
  intros Hex. rewrite process_thinking_stream_run, foldl_classify.
  enough (answer_deltas F = deltas "content" F) as -> by done.
  induction Hex as [|p F Hp _ IH]; [done|].
  destruct (fragment_message p !! "thinking") as [d|] eqn:Ht.
  - rewrite answer_deltas_cons_thinking by (unfold tagged; rewrite Ht; eauto).
    rewrite deltas_cons, IH.
    destruct (fragment_message p !! "content") as [d'|] eqn:Hc; [|done].
    exfalso. apply Hp. unfold tagged. rewrite Ht, Hc. eauto.
  - by rewrite (answer_deltas_cons_other _ _ Ht), deltas_cons, IH.
Qed.

(** The scenario of the specification. *)
Example process_thinking_stream_scenario :
  (process_thinking_stream
     (Stream [thinking_only "Let me "; thinking_only "think."; content_only "42"] None)
     (fresh None)).2 = inr ("Let me think.", "42").
Proof. reflexivity. Qed.

(** C5. A fragment that carries both a thinking delta [d] and a content
    delta [d'] adds [d] to the reasoning text and nothing to the answer:
    with it between [F1] and [F2], the result is the results of [F1] and
    [F2] glued together with [d] in the reasoning text only. *)
Theorem thinking_shadows_content (F1 F2 : list part) (p : part) (d d' : string)
    (σ : runtime) (r1 a1 r2 a2 : string) :
  fragment_message p !! "thinking" = Some d →
  fragment_message p !! "content" = Some d' →
  (process_thinking_stream (Stream F1 None) σ).2 = inr (r1, a1) →
  (process_thinking_stream (Stream F2 None) σ).2 = inr (r2, a2) →
  (process_thinking_stream (Stream (F1 ++ p :: F2) None) σ).2 =
    inr ((r1 +:+ d) +:+ r2, a1 +:+ a2).
Proof.
  intros Ht _. rewrite !process_thinking_stream_run. simpl.
  intros [= H1] [= H2]. f_equal.
  rewrite foldl_app. simpl. rewrite H1, (classify_thinking _ _ d Ht). simpl.
  rewrite foldl_classify. rewrite foldl_classify in H2. simpl in *.
  by simplify_eq.
Qed.

Lemma thinking_shadows_content_witness :
  fragment_message both_tags !! "thinking" = Some "a"
  ∧ fragment_message both_tags !! "content" = Some "b"
  ∧ (process_thinking_stream
       (Stream ([content_only "x"] ++ both_tags :: [thinking_only "y"]) None)
       (fresh None)).2 = inr (("" +:+ "a") +:+ "y", "x" +:+ "").
Proof.
  split_and!; [reflexivity|reflexivity|].
  apply (thinking_shadows_content [content_only "x"] [thinking_only "y"]
           both_tags "a" "b" (fresh None) "" "x" "y" ""); reflexivity.
Defined.

(** C6. Fragments that carry neither a thinking nor a content delta are
    ignored: a stream and the same stream without its untagged fragments
    are processed alike. *)
Theorem process_thinking_stream_ignores_untagged (F : list part)
    (end_of_stream : option exn) (σ : runtime) :
  process_thinking_stream
    (Stream (filter (λ p, tagged "thinking" p ∨ tagged "content" p) F) end_of_stream) σ
  = process_thinking_stream (Stream F end_of_stream) σ.
Proof. unfold process_thinking_stream. simpl. by rewrite foldl_classify_tagged. Qed.

(** C7. The empty fragment sequence is classified as two empty strings. *)
Theorem process_thinking_stream_empty (σ : runtime) :
  (process_thinking_stream (Stream [] None) σ).2 = inr ("", "").
Proof. reflexivity. Qed.

(** C2, as stated, fails: when the stream of a turn breaks after the
    fragment [{content: "partial"}], the store is one message longer than
    before the turn, because the user message is appended before the
    transport is called and nothing takes it back. *)
Lemma failed_turn_keeps_user_message :
  store opened = Some [system_message]
  ∧ (handle_user_input broken_turn sample_client opened).2
    = inl (ResponseError "connection lost")
  ∧ store (handle_user_input broken_turn sample_client opened).1
    = Some [system_message; user_message "hi"]
  ∧ length <$> store (handle_user_input broken_turn sample_client opened).1
    ≠ length <$> store opened.
Proof.
  split_and!; [vm_compute; reflexivity..|].
  vm_compute. discriminate.
Qed.

(** C2 (amended). When the stream of a turn raises after any prefix [F] of
    fragments, the handler raises that error, and the store after the turn
    is the store before it followed by the user message of the turn: no
    assistant message and none of the accumulated text is committed. *)
Theorem handle_user_input_stream_failure (w : world) (c : Client) (σ : runtime)
    (msgs : list message) (u : string) (F : list part) (e : exn) :
  submitted w = Some u →
  store σ = Some msgs →
  ollama_chat w (default c (chat_model_cache σ)) "minimax-m2:cloud"
              (msgs ++ [user_message u]) = inr (Stream F (Some e)) →
  (handle_user_input w c σ).2 = inl e
  ∧ store (handle_user_input w c σ).1 = Some (msgs ++ [user_message u]).
Proof.
  intros Hs Hst Hreply.
  destruct (handle_user_input_turn w c σ msgs u Hs Hst) as (_ & _ & Hr & Hss).
  unfold reply in *. rewrite Hreply in *. simpl in *.
  split; [done|]. unfold store. by rewrite Hss, lookup_insert_eq.
Qed.

Lemma handle_user_input_stream_failure_witness :
  submitted broken_turn = Some "hi"
  ∧ store opened = Some [system_message]
  ∧ (handle_user_input broken_turn sample_client opened).2
    = inl (ResponseError "connection lost")
  ∧ store (handle_user_input broken_turn sample_client opened).1
    = Some ([system_message] ++ [user_message "hi"]).
Proof.
  split; [reflexivity|]. split; [vm_compute; reflexivity|].
  apply (handle_user_input_stream_failure broken_turn sample_client opened
           [system_message] "hi" [content_only "partial"]
           (ResponseError "connection lost"));
    vm_compute; reflexivity.
Defined.

(** C3 (at the failing input). Without [OLLAMA_API_KEY] in the environment
    every run of the script stops at the construction of the client with a
    [TypeError]: nothing is drawn, no text is read, the transport is not
    called and the session is left as it was. *)
Theorem rerun_no_credential (σ : runtime) :
  rerun no_credential σ =
    (Runtime (session_state σ) (chat_model_cache σ) [], inl TypeError).
Proof. by apply rerun_without_key. Qed.

(** C4. After the runs of a session that all return, [N] of them with a
    submitted text, the store is the system message followed by the [N]
    exchanges in order, each a user message with the submitted text and
    then an assistant message: its roles are system, then [N] times user,
    assistant. *)
Theorem completed_turns_alternate (w0 : world) (ws : list world)
    (cache : option Client) (σ : runtime) :
  completed (w0 :: ws) (fresh cache) = Some σ →
  ∃ xs, xs.*1 = omap submitted (w0 :: ws)
        ∧ store σ = Some (transcript xs)
        ∧ roles (transcript xs) =
            Some "system"
            :: mjoin (replicate (length (omap submitted (w0 :: ws)))
                                [Some "user"; Some "assistant"]).
Proof.
  intros Hc. simpl in Hc.
  destruct (rerun w0 (fresh cache)) as [σ1 [e|[]]] eqn:Hrun; [done|].
  destruct (rerun_completed _ _ _ Hrun) as (ys & Hys & Hst1).
  change (store (fresh cache)) with (@None (list message)) in Hst1.
  change (store σ1 = Some (transcript ys)) in Hst1.
  destruct (completed_transcript ws σ1 σ ys Hst1 Hc) as (zs & Hzs & Hst).
  exists (ys ++ zs).
  assert ((ys ++ zs).*1 = omap submitted (w0 :: ws)) as Hin.
  { rewrite fmap_app, Hys, Hzs. simpl. by destruct (submitted w0). }
  split_and!; [done|done|].
  by rewrite roles_transcript, <- Hin, length_fmap.
Qed.

Lemma completed_turns_alternate_witness :
  completed [page_load; answered_turn; page_load; answered_turn] (fresh None)
    = Some (run_all [page_load; answered_turn; page_load; answered_turn] (fresh None))
  ∧ ∃ xs, xs.*1 = ["6 x 7?"; "6 x 7?"]
          ∧ store (run_all [page_load; answered_turn; page_load; answered_turn]
                           (fresh None)) = Some (transcript xs)
          ∧ roles (transcript xs) =
              [Some "system"; Some "user"; Some "assistant";
               Some "user"; Some "assistant"].
Proof.
  split; [vm_compute; reflexivity|].
  apply (completed_turns_alternate page_load
           [answered_turn; page_load; answered_turn] None).
  vm_compute; reflexivity.
Defined.

(** C8. The history is rendered as the stored messages whose role is not
    system, each through [display_message]; and when a text is submitted,
    the chat model is called with the whole store, system message
    included, followed by the new user message. *)
Theorem system_message_hidden_but_sent (w : world) (c : Client) (σ : runtime)
    (msgs : list message) :
  store σ = Some msgs →
  display_chat_history σ =
    for_each (filter (λ m : message, m !! "role" ≠ Some "system") msgs)
             display_message σ
  ∧ ∀ u, submitted w = Some u →
      Chat (default c (chat_model_cache σ)) "minimax-m2:cloud"
           (msgs ++ [user_message u]) ∈ page (handle_user_input w c σ).1.
Proof.
  intros Hst. split.
  - unfold display_chat_history. rewrite bind_run.
    unfold session_get, subscript. unfold store in Hst. rewrite Hst.
    apply for_each_skip_system.
  - intros u Hs.
    by destruct (handle_user_input_turn w c σ msgs u Hs Hst) as (_ & Hchat & _).
Qed.

Lemma system_message_hidden_but_sent_witness :
  store opened = Some [system_message]
  ∧ display_chat_history opened = (opened, inr tt)
  ∧ Chat sample_client "minimax-m2:cloud" [system_message; user_message "6 x 7?"]
      ∈ page (handle_user_input answered_turn sample_client opened).1.
Proof.
  destruct (system_message_hidden_but_sent answered_turn sample_client opened
              [system_message]) as [Hshow Hsent]; [vm_compute; reflexivity|].
  split_and!; [vm_compute; reflexivity| |].
  - rewrite Hshow. vm_compute; reflexivity.
  - apply (Hsent "6 x 7?"). reflexivity.
Defined.

(** C9. The store only grows at its end: whatever a run does and however it
    ends, the store before the run is a prefix of the store after it. *)
Theorem store_append_only (w : world) (σ : runtime) (msgs : list message) :
  store σ = Some msgs →
  ∃ msgs', store (rerun w σ).1 = Some msgs' ∧ msgs `prefix_of` msgs'.
Proof.
  intros Hst.
  destruct (environ w !! "OLLAMA_API_KEY") as [key|] eqn:Hk.
  - destruct (rerun_appends w σ key Hk) as (tail & Hss & _).
    rewrite Hst in Hss. exists (msgs ++ tail).
    split; [|by apply prefix_app_r].
    unfold store. by rewrite Hss, lookup_insert_eq.
  - rewrite (rerun_without_key w σ Hk). by exists msgs.
Qed.

Lemma store_append_only_witness :
  store opened = Some [system_message]
  ∧ ∃ msgs', store (rerun broken_turn opened).1 = Some msgs'
             ∧ [system_message] `prefix_of` msgs'.
Proof.
  split; [vm_compute; reflexivity|].
  apply (store_append_only broken_turn opened). vm_compute; reflexivity.
Defined.

(** C10. In every state that a session reaches, a stored message that has
    a thinking field is an assistant message: the system message and the
    user messages have none. *)
Theorem thinking_only_on_assistant (ws : list world) (cache : option Client)
    (msgs : list message) :
  store (run_all ws (fresh cache)) = Some msgs →
  Forall (λ m : message, is_Some (m !! "thinking") → m !! "role" = Some "assistant")
         msgs.
Proof.
  revert msgs. unfold run_all.
  induction ws as [|w ws IH] using rev_ind; intros msgs.
  - simpl. unfold store. simpl. by rewrite lookup_empty.
  - rewrite foldl_app. simpl. by apply (rerun_thinking w).
Qed.

Lemma thinking_only_on_assistant_witness :
  store (run_all [page_load; answered_turn; broken_turn] (fresh None))
    = Some [system_message; user_message "6 x 7?";
            assistant_message "42" "Let me think."; user_message "hi"]
  ∧ Forall (λ m : message, is_Some (m !! "thinking") → m !! "role" = Some "assistant")
           [system_message; user_message "6 x 7?";
            assistant_message "42" "Let me think."; user_message "hi"].
Proof.
  split; [vm_compute; reflexivity|].
  apply (thinking_only_on_assistant [page_load; answered_turn; broken_turn] None).
  vm_compute; reflexivity.
Defined.

(** * Further properties of the script *)

(** ** The classifier *)

Lemma classify_swap (acc : string * string) (p q : part) :
  tagged "thinking" p → ¬ tagged "thinking" q →
  classify (classify acc p) q = classify (classify acc q) p.
Proof.
  intros [d Hd] Hq.
  assert (fragment_message q !! "thinking" = None) as Hq'
    by (apply eq_None_not_Some; exact Hq).
  rewrite !(classify_thinking _ p d Hd).
  destruct (fragment_message q !! "content") as [d'|] eqn:Hc.
  - by rewrite !(classify_content _ q d' Hq' Hc).
  - by rewrite !(classify_untagged _ q Hq' Hc).
Qed.

(** X1. Classification composes over concatenation of streams: the result
    for [F1 ++ F2] is the component-wise concatenation of the results for
    [F1] and [F2]. *)
Theorem process_thinking_stream_app (F1 F2 : list part) (σ : runtime)
    (r1 a1 r2 a2 : string) :
  (process_thinking_stream (Stream F1 None) σ).2 = inr (r1, a1) →
  (process_thinking_stream (Stream F2 None) σ).2 = inr (r2, a2) →
  (process_thinking_stream (Stream (F1 ++ F2) None) σ).2 =
    inr (r1 +:+ r2, a1 +:+ a2).
Proof.
  rewrite !process_thinking_stream_run. simpl. intros [= H1] [= H2]. f_equal.
  rewrite foldl_app, H1, foldl_classify. rewrite foldl_classify in H2.
  simpl in *. by simplify_eq.
Qed.

Lemma process_thinking_stream_app_witness :
  (process_thinking_stream
     (Stream ([thinking_only "Let me "; content_only "4"]
              ++ [thinking_only "think."; content_only "2"]) None) (fresh None)).2
  = inr ("Let me " +:+ "think.", "4" +:+ "2").
Proof.
  apply (process_thinking_stream_app [thinking_only "Let me "; content_only "4"]
           [thinking_only "think."; content_only "2"] (fresh None));
    reflexivity.
Defined.

(** X2. A fragment with a thinking delta and a neighbour without one can
    change places without changing what the stream is classified as. *)
Theorem process_thinking_stream_swap (F1 F2 : list part) (p q : part)
    (end_of_stream : option exn) (σ : runtime) :
  tagged "thinking" p → ¬ tagged "thinking" q →
  process_thinking_stream (Stream (F1 ++ p :: q :: F2) end_of_stream) σ =
  process_thinking_stream (Stream (F1 ++ q :: p :: F2) end_of_stream) σ.
Proof.
  intros Hp Hq. unfold process_thinking_stream. simpl.
  rewrite !foldl_app. simpl. by rewrite (classify_swap _ p q Hp Hq).
Qed.

Lemma process_thinking_stream_swap_witness :
  process_thinking_stream
    (Stream ([] ++ thinking_only "a" :: content_only "b" :: []) None) (fresh None) =
  process_thinking_stream
    (Stream ([] ++ content_only "b" :: thinking_only "a" :: []) None) (fresh None).
Proof.
  apply (process_thinking_stream_swap [] [] (thinking_only "a") (content_only "b")).
  - exists "a". reflexivity.
  - intros [d Hd]. vm_compute in Hd. discriminate.
Defined.

(** X3. A stream that raises after any fragments makes
    [process_thinking_stream] raise the same exception: what was
    accumulated is not returned, the status block is left without the
    completion update, and the session is not touched. *)
Theorem process_thinking_stream_raises (F : list part) (e : exn) (σ : runtime) :
  (process_thinking_stream (Stream F (Some e)) σ).2 = inl e
  ∧ session_state (process_thinking_stream (Stream F (Some e)) σ).1 = session_state σ
  ∧ page (process_thinking_stream (Stream F (Some e)) σ).1 =
      page σ ++ [Enter (StatusBlock "💭 Thinking..."); Leave (StatusBlock "💭 Thinking...")].
Proof. by rewrite process_thinking_stream_raise. Qed.

(** X4. Nothing of the fragments is drawn while the stream is consumed: the
    page and the session after [process_thinking_stream] depend only on
    how the stream ends. *)
Theorem process_thinking_stream_draws_no_text (F : list part)
    (end_of_stream : option exn) (σ : runtime) :
  (process_thinking_stream (Stream F end_of_stream) σ).1 =
  (process_thinking_stream (Stream [] end_of_stream) σ).1.
Proof.
  destruct end_of_stream as [e|].
  - by rewrite !process_thinking_stream_raise.
  - by rewrite !process_thinking_stream_run.
Qed.

(** ** Drawing *)

Lemma display_assistant_message_returns content thinking_content σ :
  (display_assistant_message content thinking_content σ).2 = inr tt.
Proof.
  unfold display_assistant_message. rewrite bind_run.
  destruct thinking_content as [t|]; [destruct (truthy t && negb (blank t))|];
    simpl; destruct content as [c|]; try destruct (truthy c); done.
Qed.

Lemma ascii_spaces_blank s : ascii_spaces s = true → blank s = true.
Proof.
  induction s as [|a s IH]; [done|]. simpl.
  intros [Ha Hs]%andb_true_iff. rewrite Ha. by apply IH.
Qed.

(** X5. A thinking text made of ASCII white space only (code points 9-13
    and 28-32) is not shown: the assistant message is drawn as if it had no
    thinking text. *)
Theorem blank_thinking_not_shown (content : option string) (t : string)
    (σ : runtime) :
  ascii_spaces t = true →
  display_assistant_message content (Some t) σ =
  display_assistant_message content None σ.
Proof.
  intros Ht%ascii_spaces_blank. unfold display_assistant_message.
  by rewrite Ht, andb_false_r.
Qed.

Lemma blank_thinking_not_shown_witness :
  display_assistant_message (Some "42") (Some "  ") (fresh None) =
  display_assistant_message (Some "42") None (fresh None).
Proof. apply (blank_thinking_not_shown (Some "42") "  " (fresh None)). reflexivity. Defined.

Lemma with_block_result {A} b (m : py A) σ :
  (with_block b m σ).2 =
    (m (Runtime (session_state σ) (chat_model_cache σ) (page σ ++ [Enter b]))).2.
Proof. unfold with_block. simpl. by destruct (m _). Qed.

Lemma display_message_result (m : message) σ :
  (display_message m σ).2 = inr tt ↔ displayable m.
Proof.
  unfold display_message, displayable. rewrite bind_subscript.
  destruct (m !! "role") as [r|] eqn:Hr; [|split; [done|by intros (? & ? & _)]].
  rewrite with_block_result. destruct (decide (r = "user")) as [->|Hne].
  - rewrite decide_False by done. rewrite bind_subscript.
    destruct (m !! "content") as [c|] eqn:Hc.
    + split; [|done]. intros _. exists "user". eauto.
    + split; [done|]. intros (r & [= <-] & Hcontent).
      by destruct (Hcontent eq_refl).
  - rewrite decide_True by done. rewrite display_assistant_message_returns.
    split; [|done]. intros _. exists r. split; [done|]. by intros ->.
Qed.


Lemma for_each_display_result (msgs : list message) σ :
  (for_each msgs (λ m,
     r ← subscript m "role";
     if decide (r ≠ "system") then display_message m else mret tt) σ).2 = inr tt
  ↔ Forall displayable msgs.
Proof.
  revert σ. induction msgs as [|m msgs IH]; intros σ; [by split|].
  rewrite for_each_cons, bind_run, bind_subscript, Forall_cons.
  destruct (m !! "role") as [r|] eqn:Hr.
  - destruct (decide (r ≠ "system")) as [Hne|Heq%dec_stable].
    + pose proof (display_message_result m σ) as Hm.
      destruct (display_message m σ) as [σ1 [e|[]]]; simpl in *.
      * split; [done|]. intros [Hd _]. by apply Hm in Hd.
      * rewrite IH. split; [|tauto]. intros HF. split; [by apply Hm|done].
    + subst r. simpl. rewrite IH. split; [|tauto]. intros HF. split; [|done].
      exists "system". split; [done|]. discriminate.
  - simpl. split; [done|]. intros [(r & Hr' & _) _]. congruence.
Qed.

Lemma display_chat_history_result σ :
  (display_chat_history σ).2 = inr tt
  ↔ ∃ msgs, store σ = Some msgs ∧ Forall displayable msgs.
Proof.
  unfold display_chat_history, store. rewrite bind_run.
  unfold session_get, subscript.
  destruct (session_state σ !! "messages") as [msgs|]; simpl.
  - rewrite for_each_display_result. split; [by eauto|].
    by intros (msgs' & [= <-] & HF).
  - split; [done|]. by intros (? & ? & _).
Qed.

(** X7. Rendering the history returns exactly when the store exists and
    every stored message can be drawn; the system message counts, although
    it is skipped, because its role is read. *)
Theorem display_chat_history_returns_iff (σ : runtime) :
  (display_chat_history σ).2 = inr tt
  ↔ ∃ msgs, store σ = Some msgs ∧ Forall displayable msgs.
Proof. apply display_chat_history_result. Qed.

(** ** Invariants of the store *)

Section invariant.

Variable P : message → Prop.
Hypothesis P_system : P system_message.
Hypothesis P_appended : ∀ w r tail, run_appends w r tail → Forall P tail.

Lemma rerun_Forall w σ :
  (∀ msgs, store σ = Some msgs → Forall P msgs) →
  ∀ msgs, store (rerun w σ).1 = Some msgs → Forall P msgs.
Proof.
  intros Hinv msgs.
  destruct (environ w !! "OLLAMA_API_KEY") as [key|] eqn:Hk.
  - destruct (rerun_appends w σ key Hk) as (tail & Hss & Hr).
    unfold store at 1. rewrite Hss, lookup_insert_eq. intros [= <-].
    apply Forall_app. split; [|by eapply P_appended].
    destruct (store σ) as [msgs0|] eqn:Hst; simpl; [by apply Hinv|].
    by repeat constructor.
  - rewrite (rerun_without_key w σ Hk). apply Hinv.
Qed.

Lemma run_all_Forall ws cache msgs :
  store (run_all ws (fresh cache)) = Some msgs → Forall P msgs.
Proof.
  revert msgs. unfold run_all.
  induction ws as [|w ws IH] using rev_ind; intros msgs.
  - unfold store. simpl. by rewrite lookup_empty.
  - rewrite foldl_app. simpl. by apply rerun_Forall.
Qed.

End invariant.

Lemma run_appends_Forall (P : message → Prop) w r tail :
  (∀ u, truthy u = true → P (user_message u)) →
  (∀ r t, P (assistant_message r t)) →
  run_appends w r tail → Forall P tail.
Proof.
  intros Hu Ha. destruct 1 as [|?|u e Hs|u r t Hs]; repeat constructor; auto;
    apply Hu; by apply submitted_Some in Hs as [_ ?].
Qed.

Lemma system_message_displayable : displayable system_message.
Proof. exists "system". split; [reflexivity|discriminate]. Qed.

Lemma user_message_displayable u : displayable (user_message u).
Proof. exists "user". split; [reflexivity|]. intros _. exists u. reflexivity. Qed.

Lemma assistant_message_displayable r t : displayable (assistant_message r t).
Proof. exists "assistant". split; [reflexivity|discriminate]. Qed.

(** X8. In every state that a session reaches, failed turns included, the
    history can be rendered: once the store exists, [display_chat_history]
    returns. *)
Theorem history_renders_in_every_state (ws : list world) (cache : option Client)
    (msgs : list message) :
  store (run_all ws (fresh cache)) = Some msgs →
  (display_chat_history (run_all ws (fresh cache))).2 = inr tt.
Proof.
  intros Hst. apply display_chat_history_result. exists msgs. split; [done|].
  apply (run_all_Forall displayable system_message_displayable)
    with (ws := ws) (cache := cache); [|done].
  intros w r tail. apply run_appends_Forall;
    auto using user_message_displayable, assistant_message_displayable.
Qed.

Lemma history_renders_in_every_state_witness :
  store (run_all [page_load; broken_turn; answered_turn] (fresh None))
    = Some [system_message; user_message "hi"; user_message "6 x 7?";
            assistant_message "42" "Let me think."]
  ∧ (display_chat_history
       (run_all [page_load; broken_turn; answered_turn] (fresh None))).2 = inr tt.
Proof.
  split; [compute_done|].
  apply (history_renders_in_every_state [page_load; broken_turn; answered_turn] None
           [system_message; user_message "hi"; user_message "6 x 7?";
            assistant_message "42" "Let me think."]).
  compute_done.
Defined.

(** X9. In every state that a session reaches, the store, once it exists,
    begins with the system message, and every message after it is a user
    or an assistant message: the system message is never stored twice. *)
Theorem store_head_is_system (ws : list world) (cache : option Client)
    (msgs : list message) :
  store (run_all ws (fresh cache)) = Some msgs →
  ∃ rest, msgs = system_message :: rest
          ∧ Forall (λ m : message, m !! "role" = Some "user"
                                   ∨ m !! "role" = Some "assistant") rest.
Proof.
  revert msgs. unfold run_all.
  induction ws as [|w ws IH] using rev_ind; intros msgs.
  - unfold store. simpl. by rewrite lookup_empty.
  - rewrite foldl_app. simpl.
    set (σ := foldl (λ σ w, (rerun w σ).1) (fresh cache) ws) in *.
    destruct (environ w !! "OLLAMA_API_KEY") as [key|] eqn:Hk.
    + destruct (rerun_appends w σ key Hk) as (tail & Hss & Hr).
      unfold store at 1. rewrite Hss, lookup_insert_eq. intros [= <-].
      assert (Forall (λ m : message, m !! "role" = Some "user"
                                     ∨ m !! "role" = Some "assistant") tail) as Htail.
      { destruct Hr; repeat constructor; by (left + right). }
      destruct (store σ) as [msgs0|] eqn:Hst; simpl.
      * destruct (IH msgs0 eq_refl) as (rest & -> & Hrest).
        exists (rest ++ tail). split; [done|]. by apply Forall_app.
      * by exists tail.
    + rewrite (rerun_without_key w σ Hk). apply IH.
Qed.

Lemma store_head_is_system_witness :
  store (run_all [page_load; broken_turn; answered_turn] (fresh None))
    = Some [system_message; user_message "hi"; user_message "6 x 7?";
            assistant_message "42" "Let me think."]
  ∧ ∃ rest, [system_message; user_message "hi"; user_message "6 x 7?";
             assistant_message "42" "Let me think."] = system_message :: rest
            ∧ Forall (λ m : message, m !! "role" = Some "user"
                                     ∨ m !! "role" = Some "assistant") rest.
Proof.
  split; [compute_done|].
  apply (store_head_is_system [page_load; broken_turn; answered_turn] None).
  compute_done.
Defined.

(** ** Code that does not call the transport *)

Lemma requests_app pg pg' : requests (pg ++ pg') = requests pg ++ requests pg'.
Proof. apply omap_app. Qed.

Lemma requests_snoc_other pg ev :
  requests [ev] = [] → requests (pg ++ [ev]) = requests pg.
Proof. intros Hev. by rewrite requests_app, Hev, (right_id_L [] (++)). Qed.

Lemma quiet_ret {A} (x : A) : quiet (mret x).
Proof. by intros σ. Qed.

Lemma quiet_raise {A} (e : exn) : quiet (raise e : py A).
Proof. by intros σ. Qed.

Lemma quiet_emit ev : requests [ev] = [] → quiet (emit ev).
Proof. intros Hev σ. simpl. split_and!; [done..|]. by apply requests_snoc_other. Qed.

Lemma quiet_bind {A B} (m : py A) (f : A → py B) :
  quiet m → (∀ x, quiet (f x)) → quiet (m ≫= f).
Proof.
  intros Hm Hf σ. rewrite bind_run.
  destruct (Hm σ) as (Hs & Hc & Hr). destruct (m σ) as [σ1 [e|x]]; simpl in *; [done|].
  destruct (Hf x σ1) as (Hs' & Hc' & Hr'). split_and!; congruence.
Qed.

Lemma quiet_with_block {A} b (m : py A) : quiet m → quiet (with_block b m).
Proof.
  intros Hm σ. unfold with_block. simpl.
  destruct (Hm (Runtime (session_state σ) (chat_model_cache σ)
                        (page σ ++ [Enter b]))) as (Hs & Hc & Hr).
  destruct (m _) as [σ2 r]. simpl in *. split_and!; [done..|].
  rewrite requests_snoc_other by done. rewrite Hr. by apply requests_snoc_other.
Qed.

Lemma quiet_subscript {A} (d : gmap string A) k : quiet (subscript d k).
Proof. unfold subscript. by destruct (d !! k); intros σ. Qed.

Lemma quiet_for_each {A} (xs : list A) (body : A → py unit) :
  (∀ x, quiet (body x)) → quiet (for_each xs body).
Proof.
  intros Hb. induction xs as [|x xs IH]; simpl.
  - by intros σ.
  - apply quiet_bind; [apply Hb|done].
Qed.

Lemma quiet_session_get k : quiet (session_get k).
Proof. intros σ. unfold session_get, subscript. by destruct (session_state σ !! k). Qed.

Create HintDb quiet.

#[export] Hint Resolve quiet_ret quiet_raise quiet_with_block quiet_subscript
  quiet_for_each quiet_session_get : quiet.

#[export] Hint Extern 1 (quiet (emit _)) => apply quiet_emit; reflexivity : quiet.

#[export] Hint Extern 2 (quiet (_ ≫= _)) =>
  apply quiet_bind; [|intros ?] : quiet.

#[export] Hint Extern 3 (quiet (match ?x with _ => _ end)) =>
  destruct x : quiet.

Lemma quiet_display_assistant_message content thinking_content :
  quiet (display_assistant_message content thinking_content).
Proof. unfold display_assistant_message. auto 8 with quiet. Qed.

Lemma quiet_display_message m : quiet (display_message m).
Proof.
  unfold display_message. auto 8 using quiet_display_assistant_message with quiet.
Qed.

Lemma quiet_display_chat_history : quiet display_chat_history.
Proof.
  unfold display_chat_history. auto 8 using quiet_display_message with quiet.
Qed.

(** ** Requests and the cached client *)

Ltac solve_requests :=
  rewrite !requests_app; simpl; rewrite ?(right_id_L [] (++)); done.

Section requests.

Variable w : world.

Implicit Types (c : Client) (σ : runtime).

Lemma handle_user_input_requests c σ :
  let r := handle_user_input w c σ in
  match submitted w, store σ with
  | Some u, Some msgs =>
      requests (page r.1) =
        requests (page σ)
        ++ [(default c (chat_model_cache σ), "minimax-m2:cloud",
             msgs ++ [user_message u])]
      ∧ chat_model_cache r.1 = Some (default c (chat_model_cache σ))
  | _, _ =>
      requests (page r.1) = requests (page σ)
      ∧ chat_model_cache r.1 = chat_model_cache σ
      ∧ session_state r.1 = session_state σ
  end.
Proof.
  destruct (submitted w) as [u|] eqn:Hs; simpl.
  - apply submitted_Some in Hs as [Hi Ht].
    destruct σ as [ss cache pg]. unfold store. simpl.
    unfold handle_user_input. rewrite Hi, Ht.
    destruct (ss !! "messages") as [msgs|] eqn:Hst.
    + unfold mbind, py_bind, emit, session_append, with_block, get_chat_model,
        session_get, subscript, emit. simpl. rewrite Hst. simpl.
      rewrite lookup_insert_eq. simpl.
      destruct (ollama_chat w (default c cache) "minimax-m2:cloud"
                            (msgs ++ [user_message u])) as [e|[F [e|]]]; simpl.
      * split; [|done]. solve_requests.
      * split; [|done]. solve_requests.
      * destruct (foldl classify ("", "") F) as [t r]. simpl.
        unfold display_assistant_message, mbind, py_bind, with_block, emit.
        destruct (truthy t && negb (blank t)), (truthy r); simpl;
          rewrite lookup_insert_eq; simpl;
          (split; [|done]); solve_requests.
    + unfold mbind, py_bind, emit, session_append. simpl. rewrite Hst. simpl.
      split_and!; [|done..]. by apply requests_snoc_other.
  - rewrite (handle_user_input_idle w c σ Hs). simpl.
    split_and!; [|done..]. by apply requests_snoc_other.
Qed.

Lemma main_requests c σ msgs :
  store σ = Some msgs →
  requests (page σ) = [] →
  (requests (page (main w c σ).1) = []
   ∧ chat_model_cache (main w c σ).1 = chat_model_cache σ)
  ∨ (∃ u, submitted w = Some u
          ∧ requests (page (main w c σ).1) =
              [(default c (chat_model_cache σ), "minimax-m2:cloud",
                msgs ++ [user_message u])]
          ∧ chat_model_cache (main w c σ).1 = Some (default c (chat_model_cache σ))).
Proof.
  intros Hst Hpg. unfold main. rewrite !bind_run. unfold read_file.
  destruct (files w !! "assets/minimax.png") as [minimax_logo|]; [|by left].
  simpl. rewrite bind_run.
  destruct (files w !! "assets/ollama.png") as [ollama_logo|]; [|by left].
  simpl. rewrite bind_run. simpl. rewrite bind_run.
  set (σ1 := Runtime (session_state σ) (chat_model_cache σ)
                     (page σ ++ [Banner ollama_logo minimax_logo])).
  destruct (quiet_display_chat_history σ1) as (Hss & Hc & Hr).
  assert (requests (page σ1) = []) as Hpg1
    by (unfold σ1; simpl; by rewrite requests_snoc_other).
  unfold store in Hst.
  destruct (display_chat_history σ1) as [σ2 [e|[]]]; subst σ1; simpl in *.
  - left. split; congruence.
  - pose proof (handle_user_input_requests c σ2) as Hh. simpl in Hh.
    unfold store in Hh. rewrite Hss, Hst, Hr, Hpg1, Hc in Hh.
    destruct (submitted w) as [u|]; [right; by exists u|left; tauto].
Qed.

End requests.

Lemma rerun_requests w σ :
  (requests (page (rerun w σ).1) = []
   ∧ chat_model_cache (rerun w σ).1 = chat_model_cache σ)
  ∨ (∃ key u,
       environ w !! "OLLAMA_API_KEY" = Some key
       ∧ submitted w = Some u
       ∧ requests (page (rerun w σ).1) =
           [(default (client_of key) (chat_model_cache σ), "minimax-m2:cloud",
             default [system_message] (store σ) ++ [user_message u])]
       ∧ chat_model_cache (rerun w σ).1 =
           Some (default (client_of key) (chat_model_cache σ))).
Proof.
  unfold rerun, script, client, mbind, py_bind.
  destruct (environ w !! "OLLAMA_API_KEY") as [key|] eqn:Hk; [|by left].
  unfold store, client_of. simpl.
  destruct (session_state σ !! "messages") as [msgs|] eqn:Hst; simpl.
  - match goal with
    | |- context [main w ?c ?σ1] =>
        destruct (main_requests w c σ1 msgs Hst eq_refl)
          as [?|(u & Hs & Hr & Hc)]
    end; [by left|].
    right. by exists key, u.
  - match goal with
    | |- context [main w ?c ?σ1] =>
        destruct (main_requests w c σ1 [system_message]) as [?|(u & Hs & Hr & Hc)]
    end; [by apply lookup_insert_eq|done|by left|].
    right. by exists key, u.
Qed.

(** X10. A run sends at most one request to the transport, and only for a
    submitted text: the request names the fixed model and carries the store
    as the run found it (or the system message alone, if there was none)
    followed by the new user message. *)
Theorem run_sends_at_most_one_request (w : world) (σ : runtime) :
  requests (page (rerun w σ).1) = []
  ∨ ∃ key u,
      environ w !! "OLLAMA_API_KEY" = Some key
      ∧ submitted w = Some u
      ∧ requests (page (rerun w σ).1) =
          [(default (client_of key) (chat_model_cache σ), "minimax-m2:cloud",
            default [system_message] (store σ) ++ [user_message u])].
Proof.
  destruct (rerun_requests w σ) as [[Hr _]|(key & u & Hk & Hs & Hr & _)];
    [by left|].
  right. by exists key, u.
Qed.

(** X11. A run without a submitted text does not call the transport. *)
Theorem idle_run_sends_nothing (w : world) (σ : runtime) :
  submitted w = None → requests (page (rerun w σ).1) = [].
Proof.
  intros Hs.
  destruct (rerun_requests w σ) as [[Hr _]|(key & u & _ & Hs' & _)]; [done|].
  congruence.
Qed.

Lemma idle_run_sends_nothing_witness :
  submitted page_load = None ∧ requests (page (rerun page_load opened).1) = [].
Proof.
  split; [reflexivity|]. apply (idle_run_sends_nothing page_load opened). reflexivity.
Defined.

(** X12. The chat model is created once: when the resource cache holds a
    client, a run leaves it there and sends its request with that client,
    whatever credential the run itself has read. *)
Theorem cached_client_is_kept (w : world) (σ : runtime) (c0 : Client) :
  chat_model_cache σ = Some c0 →
  chat_model_cache (rerun w σ).1 = Some c0
  ∧ ∀ req, req ∈ requests (page (rerun w σ).1) → req.1.1 = c0.
Proof.
  intros Hc0.
  destruct (rerun_requests w σ) as [[Hr Hc]|(key & u & _ & _ & Hr & Hc)];
    rewrite Hr, Hc, Hc0; simpl.
  - split; [done|]. by intros req ?%elem_of_nil.
  - split; [done|]. by intros req ->%list_elem_of_singleton.
Qed.

Lemma cached_client_is_kept_witness :
  chat_model_cache (rerun answered_turn opened).1 = Some sample_client
  ∧ chat_model_cache (rerun other_key_turn (rerun answered_turn opened).1).1
    = Some sample_client
  ∧ ∀ req, req ∈ requests (page (rerun other_key_turn
                                   (rerun answered_turn opened).1).1) →
           req.1.1 = sample_client.
Proof.
  split; [compute_done|].
  apply (cached_client_is_kept other_key_turn (rerun answered_turn opened).1
           sample_client).
  compute_done.
Defined.

(** ** Turns and runs *)

(** X13. A completed turn commits what the classifier returned: the
    assistant message holds the answer as its content and the reasoning as
    its thinking text, after the user message. *)
Theorem completed_turn_commits_classification (w : world) (c : Client)
    (σ : runtime) (msgs : list message) (u : string) (F : list part) :
  submitted w = Some u →
  store σ = Some msgs →
  ollama_chat w (default c (chat_model_cache σ)) "minimax-m2:cloud"
              (msgs ++ [user_message u]) = inr (Stream F None) →
  (handle_user_input w c σ).2 = inr tt
  ∧ store (handle_user_input w c σ).1 =
      Some (msgs ++ [user_message u;
                     assistant_message (join (answer_deltas F))
                                       (join (deltas "thinking" F))]).
Proof.
  intros Hs Hst Hreply.
  destruct (handle_user_input_turn w c σ msgs u Hs Hst) as (_ & _ & Hr & Hss).
  unfold reply in *. rewrite Hreply in *. simpl in *.
  split; [done|]. unfold store. rewrite Hss, lookup_insert_eq.
  by rewrite foldl_classify.
Qed.

Lemma completed_turn_commits_classification_witness :
  submitted answered_turn = Some "6 x 7?"
  ∧ store opened = Some [system_message]
  ∧ (handle_user_input answered_turn sample_client opened).2 = inr tt
  ∧ store (handle_user_input answered_turn sample_client opened).1 =
      Some ([system_message]
            ++ [user_message "6 x 7?";
                assistant_message
                  (join (answer_deltas [thinking_only "Let me "; thinking_only "think.";
                                        content_only "42"]))
                  (join (deltas "thinking" [thinking_only "Let me ";
                                            thinking_only "think.";
                                            content_only "42"]))]).
Proof.
  split; [reflexivity|]. split; [compute_done|].
  apply (completed_turn_commits_classification answered_turn sample_client opened
           [system_message] "6 x 7?");
    [reflexivity|compute_done|reflexivity].
Defined.




(** X16. A run touches no entry of the session state but ["messages"]. *)
Theorem rerun_keeps_other_keys (w : world) (σ : runtime) (k : string) :
  k ≠ "messages" →
  session_state (rerun w σ).1 !! k = session_state σ !! k.
Proof.
  intros Hk.
  destruct (environ w !! "OLLAMA_API_KEY") as [key|] eqn:Hkey.
  - destruct (rerun_appends w σ key Hkey) as (tail & -> & _).
    by rewrite lookup_insert_ne.
  - by rewrite (rerun_without_key w σ Hkey).
Qed.

Lemma rerun_keeps_other_keys_witness :
  "draft" ≠ "messages"
  ∧ session_state
      (rerun answered_turn (Runtime {[ "draft" := [user_message "x"] ]} None [])).1
    !! "draft" = Some [user_message "x"].
Proof.
  split; [discriminate|].
  rewrite (rerun_keeps_other_keys answered_turn
             (Runtime {[ "draft" := [user_message "x"] ]} None []) "draft");
    [reflexivity|discriminate].
Defined.



(** X18. A run without a submitted text leaves the store as it found it,
    whether the run returns or raises. *)
Theorem idle_run_keeps_store (w : world) (σ : runtime) (msgs : list message) :
  submitted w = None →
  store σ = Some msgs →
  store (rerun w σ).1 = Some msgs.
Proof.
  intros Hs Hst.
  destruct (environ w !! "OLLAMA_API_KEY") as [key|] eqn:Hkey.
  - destruct (rerun_appends w σ key Hkey) as (tail & Hss & Hr).
    unfold store at 1. rewrite Hss, lookup_insert_eq, Hst. simpl.
    inversion Hr; subst; try congruence; by rewrite (right_id_L [] (++)).
  - by rewrite (rerun_without_key w σ Hkey).
Qed.

Lemma idle_run_keeps_store_witness :
  submitted page_load = None
  ∧ store opened = Some [system_message]
  ∧ store (rerun page_load opened).1 = Some [system_message].
Proof.
  split; [reflexivity|]. split; [compute_done|].
  apply (idle_run_keeps_store page_load opened); [reflexivity|compute_done].
Defined.

Lemma main_idle w w' c σ :
  files w = files w' →
  submitted w = None → submitted w' = None →
  main w c σ = main w' c σ.
Proof.
  intros Hf Hs Hs'. unfold main, read_file. rewrite !bind_run, Hf.
  destruct (files w' !! "assets/minimax.png") as [minimax_logo|]; [|done].
  simpl. rewrite !bind_run.
  destruct (files w' !! "assets/ollama.png") as [ollama_logo|]; [|done].
  simpl. rewrite !bind_run. simpl. rewrite !bind_run.
  destruct (display_chat_history _) as [σ2 [e|[]]]; [done|].
  by rewrite !handle_user_input_idle.
Qed.

(** X19. A run without a submitted text does not depend on the transport: two
    surroundings with the same environment and files, neither with a
    submitted text, give the same page, session and outcome. An empty text
    counts as no text. *)
Theorem idle_run_ignores_transport (w w' : world) (σ : runtime) :
  environ w = environ w' →
  files w = files w' →
  submitted w = None → submitted w' = None →
  rerun w σ = rerun w' σ.
Proof.
  intros He Hf Hs Hs'. unfold rerun, script, client, mbind, py_bind. rewrite He.
  destruct (environ w' !! "OLLAMA_API_KEY") as [key|]; [|done].
  simpl. destruct (bool_decide _); simpl; by apply main_idle.
Qed.

Lemma idle_run_ignores_transport_witness :
  rerun (World {[ "OLLAMA_API_KEY" := "k" ]} sample_files (Some "")
               (λ _ _ _, inr (Stream [content_only "unused"] None))) opened
  = rerun page_load opened.
Proof.
  apply (idle_run_ignores_transport
           (World {[ "OLLAMA_API_KEY" := "k" ]} sample_files (Some "")
                  (λ _ _ _, inr (Stream [content_only "unused"] None)))
           page_load opened); reflexivity.
Defined.



(** X21. A run that raises never stores an assistant message: it leaves the
    store as it was or appends the user message of the turn and nothing
    else. *)
Theorem raising_run_stores_no_assistant (w : world) (σ : runtime)
    (msgs : list message) (e : exn) :
  store σ = Some msgs →
  (rerun w σ).2 = inl e →
  store (rerun w σ).1 = Some msgs
  ∨ ∃ u, submitted w = Some u ∧ store (rerun w σ).1 = Some (msgs ++ [user_message u]).
Proof.
  intros Hst Hraise.
  destruct (environ w !! "OLLAMA_API_KEY") as [key|] eqn:Hkey.
  - destruct (rerun_appends w σ key Hkey) as (tail & Hss & Hr).
    assert (store (rerun w σ).1 = Some (msgs ++ tail)) as ->
      by (unfold store at 1; by rewrite Hss, lookup_insert_eq, Hst).
    rewrite Hraise in Hr. inversion Hr as [| |u e' Hs|]; subst.
    + left. by rewrite (right_id_L [] (++)).
    + right. by exists u.
  - left. by rewrite (rerun_without_key w σ Hkey).
Qed.

Lemma raising_run_stores_no_assistant_witness :
  store opened = Some [system_message]
  ∧ (rerun broken_turn opened).2 = inl (ResponseError "connection lost")
  ∧ (store (rerun broken_turn opened).1 = Some [system_message]
     ∨ ∃ u, submitted broken_turn = Some u
            ∧ store (rerun broken_turn opened).1
              = Some ([system_message] ++ [user_message u])).
Proof.
  split; [compute_done|]. split; [reflexivity|].
  apply (raising_run_stores_no_assistant broken_turn opened [system_message]
           (ResponseError "connection lost")); [compute_done|reflexivity].
Defined.

(** X22. In every state that a session reaches, a stored assistant message
    has both a content and a thinking entry, also when the stream carried
    no thinking delta. *)
Theorem assistant_messages_carry_thinking (ws : list world) (cache : option Client)
    (msgs : list message) :
  store (run_all ws (fresh cache)) = Some msgs →
  Forall (λ m : message, m !! "role" = Some "assistant" →
                         is_Some (m !! "content") ∧ is_Some (m !! "thinking")) msgs.
Proof.
  apply run_all_Forall.
  - intros H. by vm_compute in H.
  - intros w r tail. apply run_appends_Forall.
    + intros u _ H. by vm_compute in H.
    + intros r' t _. split; eexists; reflexivity.
Qed.

Lemma assistant_messages_carry_thinking_witness :
  store (run_all [page_load; other_key_turn] (fresh None))
    = Some [system_message; user_message "again"; assistant_message "hello" ""]
  ∧ Forall (λ m : message, m !! "role" = Some "assistant" →
                           is_Some (m !! "content") ∧ is_Some (m !! "thinking"))
           [system_message; user_message "again"; assistant_message "hello" ""].
Proof.
  split; [compute_done|].
  apply (assistant_messages_carry_thinking [page_load; other_key_turn] None).
  compute_done.
Defined.

(** X23. In every state that a session reaches, a stored user message holds
    a text that is not empty: an empty submission is never stored. *)
Theorem stored_user_texts_not_empty (ws : list world) (cache : option Client)
    (msgs : list message) :
  store (run_all ws (fresh cache)) = Some msgs →
  Forall (λ m : message, m !! "role" = Some "user" →
                         ∃ u, m !! "content" = Some u ∧ u ≠ "") msgs.
Proof.
  apply run_all_Forall.
  - intros H. by vm_compute in H.
  - intros w r tail. apply run_appends_Forall.
    + intros u Hu _. exists u. split; [reflexivity|]. by intros ->.
    + intros r' t H. by vm_compute in H.
Qed.

Lemma stored_user_texts_not_empty_witness :
  store (run_all [page_load; broken_turn] (fresh None))
    = Some [system_message; user_message "hi"]
  ∧ Forall (λ m : message, m !! "role" = Some "user" →
                           ∃ u, m !! "content" = Some u ∧ u ≠ "")
           [system_message; user_message "hi"].
Proof.
  split; [compute_done|].
  apply (stored_user_texts_not_empty [page_load; broken_turn] None).
  compute_done.
Defined.
